(** * The xmap transformer exporter

    A shallow embedding of
    [scaling_transformer_inference_efficiency/xmap_transformer_exporter.py]:
    the two functions [setup] and [lower], the closures [model_init] and
    [fwd] they define, and the library calls they make.

    The program stages two computations without running them.  Arrays are
    therefore described the way the staging API sees them: by shape, element
    type and the expression that fills them.  The ambient contexts that the
    program enters with [with rules:] and [with mesh:] are an explicit state,
    and a library call that can raise returns [None]. *)

From Stdlib Require Import ZArith List String Bool Lia.
Import ListNotations.

Set Implicit Arguments.
Local Open Scope Z_scope.

(** ** Arrays, as the staging API sees them *)

Inductive DType : Type := float32 | int32.

(** A key of the functional random number generator: the key of a seed, or
    one of the [num] keys [jax.random.split] derives from a key. *)
Inductive Key : Type :=
| PRNGKey (seed : Z)
| Subkey (parent : Key) (num idx : nat).

(** What fills an array: normal samples drawn from a key, the constant one,
    or explicit integers, as the array holds them, in row-major order. *)
Inductive Contents : Type :=
| Normal (key : Key)
| Ones
| Ints (data : list Z).

Record Array : Type := mkArray {
  shape : list Z;
  dtype : DType;
  contents : Contents
}.

(** The abstract value [jax.eval_shape] and [lower] work with: shape and
    element type, no contents. *)
Record ShapeDtypeStruct : Type := mkShapeDtypeStruct {
  sds_shape : list Z;
  sds_dtype : DType
}.

Definition aval (a : Array) : ShapeDtypeStruct :=
  mkShapeDtypeStruct (shape a) (dtype a).

Definition prod_dims (dims : list Z) : Z := fold_right Z.mul 1 dims.

Definition nonneg_dims (dims : list Z) : bool := forallb (fun d => 0 <=? d) dims.

(** The value an array of 32-bit integers holds for the integer [z]: [z]
    itself when it fits, and otherwise [z] wrapped around. *)
Definition wrap_int32 (z : Z) : Z := (z + 2 ^ 31) mod 2 ^ 32 - 2 ^ 31.

(** The shape [reshape] gives an array of [size] elements: at most one
    dimension may be [-1] and is then inferred; the element counts must
    agree.  [None] where the library raises. *)
Definition reshape_shape (size : Z) (newshape : list Z) : option (list Z) :=
  if forallb (fun d => -1 <=? d) newshape then
    match count_occ Z.eq_dec newshape (-1) with
    | O => if prod_dims newshape =? size then Some newshape else None
    | S O =>
        let known := prod_dims (filter (fun d => negb (d =? -1)) newshape) in
        if (known =? 0) || negb (size mod known =? 0) then None
        else Some (map (fun d => if d =? -1 then size / known else d) newshape)
    | _ => None
    end
  else None.

Module random.

Definition split (key : Key) (num : nat) : list Key :=
  map (Subkey key num) (seq 0 num).

(** [jax.random.normal(key, shape, dtype)]. *)
Definition normal (key : Key) (shp : list Z) (dt : DType) : option Array :=
  if nonneg_dims shp then Some (mkArray shp dt (Normal key)) else None.

End random.

Module jnp.

(** [jnp.ones(shape, dtype)]. *)
Definition ones (shp : list Z) (dt : DType) : option Array :=
  if nonneg_dims shp then Some (mkArray shp dt Ones) else None.

(** [jnp.arange(stop)] for a Python integer: an array of [stop] integers of
    32 bits counting up from 0, so [0, 1, ..., stop - 1] as long as these
    fit.  A negative [stop] raises. *)
Definition arange (stop : Z) : option Array :=
  if 0 <=? stop then
    Some (mkArray [stop] int32
                  (Ints (map wrap_int32
                             (map Z.of_nat (seq 0 (Z.to_nat stop))))))
  else None.

(** [jnp.array(l)] for a Python list of integers: an array of integers of
    32 bits, an integer that does not fit being wrapped around; the empty
    list gives an empty array of the default float type. *)
Definition array (l : list Z) : Array :=
  mkArray [Z.of_nat (List.length l)]
          (match l with [] => float32 | _ => int32 end)
          (Ints (map wrap_int32 l)).

(** [jnp.reshape(a, newshape)]: same contents in row-major order. *)
Definition reshape (a : Array) (newshape : list Z) : option Array :=
  match reshape_shape (prod_dims (shape a)) newshape with
  | Some shp => Some (mkArray shp (dtype a) (contents a))
  | None => None
  end.

End jnp.

(** Python's [[x] * n]: [n] copies, none when [n <= 0]. *)
Definition list_repeat (x : Z) (n : Z) : list Z := repeat x (Z.to_nat n).

(** ** Partition specifications *)

(** A logical specification names each dimension or leaves it [None];
    [P(None, None)] is [[None; None]]. *)
Definition LogicalSpec : Type := list (option string).

(** The physical target of one dimension: no split, one mesh axis, or an
    ordered tuple of mesh axes. *)
Inductive Physical : Type :=
| Replicated
| MeshAxis (name : string)
| MeshAxes (names : list string).

Definition PhysicalSpec : Type := list Physical.

(** ** Containers *)

Module checkpoint.

(** Modelled from the spec: [checkpoint.HParams], from checkpoint.py, which
    is not part of the sources: the record of the seven hyperparameters, in
    the order the spec lists them.  Its two derived widths, whose arithmetic
    the spec leaves open, are parameters of the exporter below. *)
Record HParams : Type := mkHParams {
  layers : Z;
  embed : Z;
  ff : Z;
  heads : Z;
  qkv : Z;
  max_len : Z;
  vocab : Z
}.

End checkpoint.

Module weights.

(** Modelled from the spec: [weights.Layer] and [weights.Weights], from
    weights.py, which is not part of the sources: the three stacked layer
    tensors, then the two rotary tables and the embedding table, in the
    order the exporter passes them to the constructors. *)
Record Layer (A : Type) : Type := mkLayer {
  q_wi : A;
  kv : A;
  o_wo : A
}.

Record Weights (A : Type) : Type := mkWeights {
  layer : Layer A;
  sin : A;
  cos : A;
  embedding : A
}.

End weights.

Module chunk.

(** Modelled from the spec: [chunk.Chunk], from chunk.py, which is not part
    of the sources: the tokens of a batch and the valid length of each
    row. *)
Record Chunk (A : Type) : Type := mkChunk {
  tokens : A;
  lengths : A
}.

(** Modelled from the spec: [chunk.FullChunkResult] is defined in chunk.py,
    which is not part of the sources.  The spec gives it a per-token output
    field and leaves its further fields open; they are kept as a list, in
    the order a tree traversal visits them. *)
Record FullChunkResult (A : Type) : Type := mkFullChunkResult {
  logits : A;
  more : list A
}.

End chunk.

Import checkpoint weights chunk.

(** Containers are trees of leaves.  [tree_map] rebuilds the container with
    a function applied to every leaf, and [tree_map2] walks two containers
    of one structure side by side. *)
Class PyTree (T : Type -> Type) : Type := {
  tree_map : forall A B : Type, (A -> B) -> T A -> T B;
  tree_map2 : forall A B C : Type, (A -> B -> C) -> T A -> T B -> T C
}.

Arguments tree_map {T _ A B} f t.
Arguments tree_map2 {T _ A B C} f t u.

#[export] Instance Layer_PyTree : PyTree Layer := {
  tree_map := fun A B f l => mkLayer (f (q_wi l)) (f (kv l)) (f (o_wo l));
  tree_map2 := fun A B C f l m =>
    mkLayer (f (q_wi l) (q_wi m)) (f (kv l) (kv m)) (f (o_wo l) (o_wo m))
}.

#[export] Instance Weights_PyTree : PyTree Weights := {
  tree_map := fun A B f w =>
    mkWeights (tree_map f (layer w)) (f (sin w)) (f (cos w)) (f (embedding w));
  tree_map2 := fun A B C f w v =>
    mkWeights (tree_map2 f (layer w) (layer v)) (f (sin w) (sin v))
              (f (cos w) (cos v)) (f (embedding w) (embedding v))
}.

#[export] Instance Chunk_PyTree : PyTree Chunk := {
  tree_map := fun A B f c => mkChunk (f (tokens c)) (f (lengths c));
  tree_map2 := fun A B C f c d =>
    mkChunk (f (tokens c) (tokens d)) (f (lengths c) (lengths d))
}.

Fixpoint zip_with {A B C : Type} (f : A -> B -> C) (l : list A) (m : list B)
  : list C :=
  match l, m with
  | a :: l', b :: m' => f a b :: zip_with f l' m'
  | _, _ => []
  end.

#[export] Instance FullChunkResult_PyTree : PyTree FullChunkResult := {
  tree_map := fun A B f r => mkFullChunkResult (f (logits r)) (map f (more r));
  tree_map2 := fun A B C f r q =>
    mkFullChunkResult (f (logits r) (logits q)) (zip_with f (more r) (more q))
}.

(** ** The device mesh *)

Inductive Device : Type := FakeDevice (platform : string) (id : nat).

Module exporter.

(** [exporter.fake_devices(n, platform)]: [n] placeholder devices. *)
Definition fake_devices (n : nat) (platform : string) : list Device :=
  map (FakeDevice platform) (seq 0 n).

End exporter.

Record NDArray (A : Type) : Type := mkNDArray {
  nd_shape : list Z;
  nd_data : list A
}.

Module np.

Definition array {A : Type} (l : list A) : NDArray A :=
  mkNDArray [Z.of_nat (List.length l)] l.

Definition reshape {A : Type} (a : NDArray A) (newshape : list Z)
  : option (NDArray A) :=
  match reshape_shape (prod_dims (nd_shape a)) newshape with
  | Some shp => Some (mkNDArray shp (nd_data a))
  | None => None
  end.

End np.

Record Mesh : Type := mkMesh {
  devices : NDArray Device;
  axis_names : list string
}.

Module maps.

(** [jax.experimental.maps.Mesh(devices, axis_names)]: one name per
    dimension of the device array. *)
Definition Mesh (devs : NDArray Device) (names : list string) : option Mesh :=
  if Nat.eqb (List.length (nd_shape devs)) (List.length names)
  then Some (mkMesh devs names) else None.

End maps.

(** ** Ambient contexts and the monad of the program *)

(** The state a statement of the program runs in: the rule tables and meshes
    entered by [with] and not yet left, innermost first, and the calls made
    so far to the library functions the program hands its policy to, oldest
    first.  [R] is the type of a rule table and [E] the type of a call. *)
Record Ambient (R E : Type) : Type := mkAmbient {
  rules_ctx : list R;
  mesh_ctx : list Mesh;
  calls : list E
}.

Definition M (R E A : Type) : Type :=
  Ambient R E -> option (A * Ambient R E).

Definition ret {R E A : Type} (a : A) : M R E A := fun s => Some (a, s).

Definition bind {R E A B : Type} (c : M R E A) (k : A -> M R E B)
  : M R E B :=
  fun s => match c s with
           | Some (a, s') => k a s'
           | None => None
           end.

Definition raise {R E A : Type} : M R E A := fun _ => None.

Definition lift {R E A : Type} (o : option A) : M R E A :=
  match o with
  | Some a => ret a
  | None => raise
  end.

Definition record_call {R E : Type} (e : E) : M R E unit :=
  fun s => Some (tt, mkAmbient (rules_ctx s) (mesh_ctx s) (calls s ++ [e])).

Notation "x <- c ;; k" := (bind c (fun x => k))
  (at level 61, c at next level, right associativity).
Notation "' pat <- c ;; k" := (bind c (fun x => match x with pat => k end))
  (at level 61, pat pattern, c at next level, right associativity).

Fixpoint mapM {R E A B : Type} (f : A -> M R E B) (l : list A)
  : M R E (list B) :=
  match l with
  | [] => ret []
  | a :: l' => b <- f a ;; bs <- mapM f l' ;; ret (b :: bs)
  end.

(** [jax.tree_util.tree_map(f, tree)] for an [f] that reads the ambient
    state: one call per leaf, in traversal order. *)
Class PyTreeM (T : Type -> Type) : Type := {
  tree_map_M : forall R E A B : Type, (A -> M R E B) -> T A -> M R E (T B)
}.

Arguments tree_map_M {T _ R E A B} f t.

#[export] Instance Layer_PyTreeM : PyTreeM Layer := {
  tree_map_M := fun R E A B f l =>
    a <- f (q_wi l) ;; b <- f (kv l) ;; c <- f (o_wo l) ;;
    ret (mkLayer a b c)
}.

#[export] Instance Weights_PyTreeM : PyTreeM Weights := {
  tree_map_M := fun R E A B f w =>
    l <- tree_map_M f (layer w) ;; s <- f (sin w) ;; c <- f (cos w) ;;
    e <- f (embedding w) ;;
    ret (mkWeights l s c e)
}.

#[export] Instance Chunk_PyTreeM : PyTreeM Chunk := {
  tree_map_M := fun R E A B f c =>
    t <- f (tokens c) ;; l <- f (lengths c) ;; ret (mkChunk t l)
}.

#[export] Instance FullChunkResult_PyTreeM : PyTreeM FullChunkResult := {
  tree_map_M := fun R E A B f r =>
    l <- f (logits r) ;; m <- mapM f (more r) ;; ret (mkFullChunkResult l m)
}.

Module partitioning.

(** [partitioning.PartitioningRules(table)]: the context manager object. *)
Record PartitioningRules (R : Type) : Type := mkPartitioningRules {
  rules : R
}.

(** Modelled from the spec: [partitioning.logical_to_physical], from
    partitioning.py, which is not part of the sources.  The program calls it
    with the logical specification alone, inside [with rules:]; the table is
    the ambient one, that of the innermost such block in effect, and there
    is none to use outside every such block.  [resolve] is what a table
    makes of a logical specification. *)
Definition logical_to_physical {R E : Type}
  (resolve : R -> LogicalSpec -> PhysicalSpec) (logical_axes : LogicalSpec)
  : M R E PhysicalSpec :=
  fun s => match rules_ctx s with
           | table :: _ => Some (resolve table logical_axes, s)
           | [] => None
           end.

End partitioning.

(** [with rules: body]: the table is in effect for [body] and the previous
    context is restored after it. *)
Definition with_rules {R E A : Type} (r : partitioning.PartitioningRules R)
  (body : M R E A) : M R E A :=
  fun s =>
    match body (mkAmbient (partitioning.rules r :: rules_ctx s)
                          (mesh_ctx s) (calls s)) with
    | Some (a, s') =>
        Some (a, mkAmbient (tl (rules_ctx s')) (mesh_ctx s') (calls s'))
    | None => None
    end.

(** [with mesh: body]. *)
Definition with_mesh {R E A : Type} (m : Mesh) (body : M R E A) : M R E A :=
  fun s =>
    match body (mkAmbient (rules_ctx s) (m :: mesh_ctx s) (calls s)) with
    | Some (a, s') =>
        Some (a, mkAmbient (rules_ctx s') (tl (mesh_ctx s')) (calls s'))
    | None => None
    end.

(** ** Staging *)

(** What [pjit(f, in_axis_resources, out_axis_resources).lower(args)] gives:
    the mesh in effect, the two sharding annotations, the abstract arguments
    and the trace of [f] on them. *)
Record Lowered (InRes OutRes Args Body : Type) : Type := mkLowered {
  lo_mesh : Mesh;
  lo_in_axis_resources : InRes;
  lo_out_axis_resources : OutRes;
  lo_args : Args;
  lo_body : Body
}.

(** Lowering traces [f] once on the abstract arguments; it needs a mesh in
    effect.  The library also checks the sharding annotations against the
    mesh and the arguments (the names of the mesh axes, an axis used twice,
    the ranks of the arrays) and raises when a check fails; these checks are
    not described, so what is stated below of a lowering that returns is
    what the library gives whenever it accepts the annotations. *)
Definition pjit_lower {R E InRes OutRes Args Body : Type}
  (f : Args -> M R E Body) (in_axis_resources : InRes)
  (out_axis_resources : OutRes) (args : Args)
  : M R E (Lowered InRes OutRes Args Body) :=
  fun s =>
    match mesh_ctx s with
    | m :: _ =>
        (body <- f args ;;
         ret (mkLowered m in_axis_resources out_axis_resources args body)) s
    | [] => None
    end.

(** [jax.eval_shape(f)] for a function without arguments that returns
    weights and a chunk: the result with every array reduced to its shape
    and element type. *)
Definition eval_shape {R E : Type}
  (f : unit -> M R E (Weights Array * Chunk Array))
  : M R E (Weights ShapeDtypeStruct * Chunk ShapeDtypeStruct) :=
  ' (p, c) <- f tt ;; ret (tree_map aval p, tree_map aval c).

(** The block of a global array that one device of [sh_mesh] holds under the
    specification [sh_spec]. *)
Record Shard : Type := mkShard {
  sh_mesh : Mesh;
  sh_spec : PhysicalSpec;
  sh_global : ShapeDtypeStruct
}.

(** What [shard_map.shard_map(f, mesh, in_specs, out_specs)(args)] stages:
    its arguments and the trace of [f] on the per-device blocks. *)
Record ShardMapped (InSpecs OutSpecs Body : Type) : Type := mkShardMapped {
  sm_mesh : Mesh;
  sm_in_specs : InSpecs;
  sm_out_specs : OutSpecs;
  sm_body : Body
}.

Module shard_map.

(** Modelled from the spec: [shard_map.shard_map], from maps/shard_map.py,
    which is not part of the sources.  The spec has the forward entry point
    staged with its resolved shardings and says no more; the call is kept
    with its arguments, and the wrapped function is traced on the blocks of
    the two arguments. *)
Definition shard_map {R E OutSpecs Body : Type}
  (f : Weights Shard -> Chunk Shard -> M R E Body) (mesh : Mesh)
  (in_specs : Weights PhysicalSpec * Chunk PhysicalSpec)
  (out_specs : OutSpecs)
  (rotated_params : Weights ShapeDtypeStruct)
  (token_chunk : Chunk ShapeDtypeStruct)
  : M R E (ShardMapped (Weights PhysicalSpec * Chunk PhysicalSpec)
                       OutSpecs Body) :=
  body <- f (tree_map2 (mkShard mesh) (fst in_specs) rotated_params)
            (tree_map2 (mkShard mesh) (snd in_specs) token_chunk) ;;
  ret (mkShardMapped mesh in_specs out_specs body).

End shard_map.

Module two_d_parallel_xmap.

(** The layer function handed to the inference driver. *)
Inductive LayerFn : Type := transformer_layer_weight_stationary.

End two_d_parallel_xmap.

(** ** An instance of what the exporter imports

    One choice for the parts of the package the exporter uses without
    defining them, on which the embedding can be run. *)
Module Instance.

Local Open Scope string_scope.

(** Modelled from the spec: the partitioning rule table of partitioning.py,
    which is not part of the sources: a mapping from logical axis name to
    physical target. *)
Definition RuleTable : Type := string -> Physical.

(** Modelled from the spec: the resolution of a logical specification, from
    partitioning.py, which is not part of the sources: a name is replaced by
    its physical mapping from the rule table, [None] is fully replicated. *)
Definition resolve (table : RuleTable) (logical_axes : LogicalSpec)
  : PhysicalSpec :=
  map (fun axis => match axis with
                   | Some name => table name
                   | None => Replicated
                   end) logical_axes.

(** A table that shards the heads over one mesh axis and nothing else. *)
Definition heads_on (mesh_axis : string) : RuleTable :=
  fun name => if String.eqb name "heads" then MeshAxis mesh_axis
              else Replicated.

(** The one attention strategy the exporter names. *)
Inductive AttnAllToAll : Type := AXES_YZX.

Definition make_rules_two_d_table (attn_sharding : AttnAllToAll)
  (batch_unsharded : bool) : RuleTable :=
  heads_on "y".

Definition q_wi_per_head (h : HParams) : Z := ff h * 2 / heads h + qkv h.

Definition o_wo_per_head (h : HParams) : Z := ff h / heads h + qkv h.

Definition Weights_logical_axes : Weights LogicalSpec :=
  mkWeights
    (mkLayer [Some "layers"; Some "heads"; Some "embed"; None]
             [Some "layers"; Some "embed"; None; None]
             [Some "layers"; Some "heads"; None; Some "embed"])
    [None; None]
    [None; None]
    [None; Some "embed"].

Definition FullChunkResult_logical_axes : FullChunkResult LogicalSpec :=
  mkFullChunkResult [None; None; None] [].

End Instance.

(** ** The exporter

    The modules the exporter imports from its own package are not part of
    the sources.  What it takes from them without looking inside is a
    parameter here: the type of a rule table and what a table makes of a
    logical specification, the enumeration of attention strategies and its
    member [AXES_YZX], the table [make_rules_two_d] builds, the two derived
    widths of the hyperparameters, the logical axes of the weights and of
    the result, and the type of a cache entry. *)
Section Exporter.

Variable RuleTable : Type.
Variable resolve : RuleTable -> LogicalSpec -> PhysicalSpec.
Variable AttnAllToAll : Type.
Variable AXES_YZX : AttnAllToAll.
Variable make_rules_two_d_table : AttnAllToAll -> bool -> RuleTable.
Variables q_wi_per_head o_wo_per_head : HParams -> Z.
Variable Weights_logical_axes : Weights LogicalSpec.
Variable FullChunkResult_logical_axes : FullChunkResult LogicalSpec.
Variable KVCache : Type.

(** The arguments of one call of [inference.infer_xmap], under the names of
    its parameters. *)
Record InferXmapArgs : Type := mkInferXmapArgs {
  ix_h : HParams;
  ix_layer_fn : two_d_parallel_xmap.LayerFn;
  ix_params : Weights Shard;
  ix_kv_caches : list KVCache;
  ix_token_chunk : Chunk Shard;
  attn_all_to_all : AttnAllToAll;
  latency_collectives : bool;
  shard_seqlen_vs_batch : bool;
  batch_unsharded : bool;
  intermediate_dtype : DType
}.

(** The calls by which the program hands its execution policy to the
    library. *)
Inductive Call : Type :=
| CallMakeRulesTwoD (attn_sharding : AttnAllToAll) (batch_unsharded : bool)
| CallInferXmap (args : InferXmapArgs).

(** The staged result of the inference driver: the call that computes it. *)
Inductive FwdResult : Type := InferXmapResult (args : InferXmapArgs).

Definition State : Type := Ambient RuleTable Call.

Definition Prog (A : Type) : Type := M RuleTable Call A.

Definition infer_xmap (args : InferXmapArgs) : Prog FwdResult :=
  _ <- record_call (CallInferXmap args) ;; ret (InferXmapResult args).

Definition make_rules_two_d (attn_sharding : AttnAllToAll)
  (batch_unsharded : bool) : Prog RuleTable :=
  _ <- record_call (CallMakeRulesTwoD attn_sharding batch_unsharded) ;;
  ret (make_rules_two_d_table attn_sharding batch_unsharded).

Definition logical_to_physical : LogicalSpec -> Prog PhysicalSpec :=
  partitioning.logical_to_physical resolve.

Definition InitLowered : Type :=
  Lowered unit (Weights PhysicalSpec * Chunk PhysicalSpec) unit
          (Weights Array * Chunk Array).

Definition FwdLowered : Type :=
  Lowered (Weights PhysicalSpec * Chunk PhysicalSpec)
          (FullChunkResult PhysicalSpec)
          (Weights ShapeDtypeStruct * Chunk ShapeDtypeStruct)
          (ShardMapped (Weights PhysicalSpec * Chunk PhysicalSpec)
                       (FullChunkResult PhysicalSpec) FwdResult).

(** An entry of the list [lower] returns. *)
Inductive Exported : Type :=
| ExportedInit (l : InitLowered)
| ExportedFwd (l : FwdLowered).

(** The closure [model_init] of [setup], with the variables it captures
    ([h], [dtype], [batch_size], [seq_len]) as parameters. *)
Definition model_init (h : HParams) (dtype : DType) (batch_size seq_len : Z)
  (_ : unit) : Prog (Weights Array * Chunk Array) :=
  let key := PRNGKey 0 in
  match random.split key 5 with
  | [key; k2; k3; k4; k5] =>
      q_wi <- lift (random.normal
                      k2 [layers h; heads h; embed h; q_wi_per_head h] dtype) ;;
      kv <- lift (random.normal k3 [layers h; embed h; 1; 2 * qkv h] dtype) ;;
      o_wo <- lift (random.normal
                      k4 [layers h; heads h; o_wo_per_head h; embed h] dtype) ;;
      embedding <- lift (random.normal k5 [vocab h; embed h] dtype) ;;
      sin <- lift (jnp.ones [max_len h; qkv h / 2] dtype) ;;
      cos <- lift (jnp.ones [max_len h; qkv h / 2] dtype) ;;
      let params_pjit := mkWeights (mkLayer q_wi kv o_wo) sin cos embedding in
      ids <- lift (jnp.arange (batch_size * seq_len)) ;;
      tokens <- lift (jnp.reshape ids [batch_size; seq_len]) ;;
      let lengths := jnp.array (list_repeat seq_len batch_size) in
      let token_chunk := mkChunk tokens lengths in
      ret (params_pjit, token_chunk)
  | _ => raise
  end.

Definition SetupResult : Type :=
  (InitLowered * DType * HParams * Mesh * Weights ShapeDtypeStruct
   * Weights ShapeDtypeStruct * list KVCache * Chunk ShapeDtypeStruct
   * Chunk PhysicalSpec * Weights PhysicalSpec
   * FullChunkResult PhysicalSpec)%type.

(** The value of the parameter [seq_len=32] of [setup]; [None] is a call
    that leaves the argument out. *)
Definition seq_len_given (seq_len : option Z) : Z :=
  match seq_len with
  | Some n => n
  | None => 32
  end.

Definition setup (mesh : Mesh) (batch_size : Z) (seq_len : option Z)
  : Prog SetupResult :=
  let seq_len := seq_len_given seq_len in
  let dtype := float32 in
  let h := mkHParams 8 16 32 16 4 256 1024 in
  let params_logical := Weights_logical_axes in
  let chunk_logical := mkChunk [None; None] [None] in
  params_sharding <- tree_map_M logical_to_physical params_logical ;;
  chunk_sharding <- tree_map_M logical_to_physical chunk_logical ;;
  let result_logical := FullChunkResult_logical_axes in
  result_sharding <- tree_map_M logical_to_physical result_logical ;;
  let model_init := model_init h dtype batch_size seq_len in
  ' (model_init_lowered, (params_pjit_shape, token_chunk_shape)) <-
    with_mesh mesh
      (model_init_lowered <-
         pjit_lower model_init tt (params_sharding, chunk_sharding) tt ;;
       shapes <- eval_shape model_init ;;
       ret (model_init_lowered, shapes)) ;;
  let kv_caches := [] in
  ret (model_init_lowered,
       dtype,
       h,
       mesh,
       params_pjit_shape,
       params_pjit_shape,
       kv_caches,
       token_chunk_shape,
       chunk_sharding,
       params_sharding,
       result_sharding).

(** The closure [fwd] of [lower], with the variables it captures as
    parameters. *)
Definition fwd (h : HParams) (kv_caches : list KVCache)
  (attn_sharding : AttnAllToAll) (batch_unsharded : bool) (dtype : DType)
  (params : Weights Shard) (token_chunk : Chunk Shard) : Prog FwdResult :=
  infer_xmap
    (mkInferXmapArgs
       h
       two_d_parallel_xmap.transformer_layer_weight_stationary
       params
       kv_caches
       token_chunk
       attn_sharding
       false
       false
       batch_unsharded
       dtype).

(** The closure [pjit_fwd] of [lower]. *)
Definition pjit_fwd (fwd : Weights Shard -> Chunk Shard -> Prog FwdResult)
  (mesh : Mesh) (param_sharding : Weights PhysicalSpec)
  (chunk_sharding : Chunk PhysicalSpec)
  (result_sharding : FullChunkResult PhysicalSpec)
  (rotated_params : Weights ShapeDtypeStruct)
  (token_chunk : Chunk ShapeDtypeStruct) :=
  shard_map.shard_map fwd mesh (param_sharding, chunk_sharding)
                      result_sharding rotated_params token_chunk.

Definition lower : Prog (list (string * Exported)) :=
  device_mesh <-
    lift (np.reshape (np.array (exporter.fake_devices 8 "tpu")) [2; 2; 2]) ;;
  let mesh_axis_names := ["x"; "y"; "z"]%string in
  mesh <- lift (maps.Mesh device_mesh mesh_axis_names) ;;
  let batch_unsharded := false in
  let attn_sharding := AXES_YZX in
  table <- make_rules_two_d attn_sharding batch_unsharded ;;
  let rules := partitioning.mkPartitioningRules table in
  ' (model_init_lowered, dtype, h, mesh, _, rotated_params, kv_caches,
     token_chunk, chunk_sharding, param_sharding, result_sharding) <-
    with_rules rules (setup mesh 8 None) ;;
  let fwd := fwd h kv_caches attn_sharding batch_unsharded dtype in
  xmap_transformer_fwd_lowered <-
    with_mesh mesh
      (let pjit_fwd :=
         pjit_fwd fwd mesh param_sharding chunk_sharding result_sharding in
       let result :=
         pjit_lower (fun args => pjit_fwd (fst args) (snd args))
                    (param_sharding, chunk_sharding) result_sharding in
       result (rotated_params, token_chunk)) ;;
  ret [("xmap_transformer_init"%string, ExportedInit model_init_lowered);
       ("xmap_transformer_fwd"%string,
        ExportedFwd xmap_transformer_fwd_lowered)].

(** *** Names for what the theorems speak about *)

(** The hyperparameters [setup] constructs and the mesh [lower] builds. *)
Definition setup_hparams : HParams := mkHParams 8 16 32 16 4 256 1024.

Definition lower_mesh : Mesh :=
  mkMesh (mkNDArray [2; 2; 2] (exporter.fake_devices 8 "tpu"))
         ["x"; "y"; "z"]%string.

(** The dimensions [model_init] reads from the hyperparameters. *)
Definition model_dims (h : HParams) : list Z :=
  [layers h; embed h; heads h; qkv h; max_len h; vocab h;
   q_wi_per_head h; o_wo_per_head h].

(** The three shardings among the eleven results of [setup]. *)
Definition shardings_of (r : SetupResult)
  : Weights PhysicalSpec * Chunk PhysicalSpec * FullChunkResult PhysicalSpec :=
  let '(_, _, _, _, _, _, _, _, chunk_sharding, params_sharding,
        result_sharding) := r in
  (params_sharding, chunk_sharding, result_sharding).

(** The calls a run has added to the log. *)
Definition new_calls (before after : State) : list Call :=
  skipn (List.length (calls before)) (calls after).

(** An array of the same shape and element type with other contents. *)
Definition with_contents (g : Contents -> Contents) (a : Array) : Array :=
  mkArray (shape a) (dtype a) (g (contents a)).

(** The value [model_init] builds from hyperparameters [h]. *)
Definition init_params (h : HParams) (dt : DType) : Weights Array :=
  mkWeights
    (mkLayer
       (mkArray [layers h; heads h; embed h; q_wi_per_head h] dt
                (Normal (Subkey (PRNGKey 0) 5 1)))
       (mkArray [layers h; embed h; 1; 2 * qkv h] dt
                (Normal (Subkey (PRNGKey 0) 5 2)))
       (mkArray [layers h; heads h; o_wo_per_head h; embed h] dt
                (Normal (Subkey (PRNGKey 0) 5 3))))
    (mkArray [max_len h; qkv h / 2] dt Ones)
    (mkArray [max_len h; qkv h / 2] dt Ones)
    (mkArray [vocab h; embed h] dt (Normal (Subkey (PRNGKey 0) 5 4))).

Definition init_chunk (batch_size seq_len : Z) : Chunk Array :=
  mkChunk
    (mkArray [batch_size; seq_len] int32
             (Ints (map Z.of_nat (seq 0 (Z.to_nat (batch_size * seq_len))))))
    (mkArray [batch_size] (if batch_size =? 0 then float32 else int32)
             (Ints (list_repeat seq_len batch_size))).

(** The same chunk when the token count or the sequence length may exceed
    32 bits. *)
Definition init_chunk_wrapped (batch_size seq_len : Z) : Chunk Array :=
  mkChunk
    (mkArray [batch_size; seq_len] int32
             (Ints (map wrap_int32
                        (map Z.of_nat
                             (seq 0 (Z.to_nat (batch_size * seq_len)))))))
    (mkArray [batch_size] (if batch_size =? 0 then float32 else int32)
             (Ints (map wrap_int32 (list_repeat seq_len batch_size)))).

(** The arguments [fwd] hands to [inference.infer_xmap] when [lower] traces
    it on the abstract value of [v], under the shardings that the table
    [make_rules_two_d] built resolves to. *)
Definition lower_infer_args (v : Weights Array * Chunk Array)
  : InferXmapArgs :=
  let table := make_rules_two_d_table AXES_YZX false in
  mkInferXmapArgs
    setup_hparams
    two_d_parallel_xmap.transformer_layer_weight_stationary
    (tree_map2 (mkShard lower_mesh)
               (tree_map (resolve table) Weights_logical_axes)
               (tree_map aval (fst v)))
    []
    (tree_map2 (mkShard lower_mesh)
               (tree_map (resolve table) (mkChunk [None; None] [None]))
               (tree_map aval (snd v)))
    AXES_YZX false false false float32.

(** [a[row, col]] for a two-dimensional array of integers and indices
    within its bounds; the integers are stored in row-major order. *)
Definition entry_at (a : Array) (row col : Z) : option Z :=
  match shape a, contents a with
  | [rows; cols], Ints data =>
      if (0 <=? row) && (row <? rows) && (0 <=? col) && (col <? cols)
      then nth_error data (Z.to_nat (row * cols + col))
      else None
  | _, _ => None
  end.

(** What [setup] returns apart from the sharding annotations: the mesh,
    the arguments and the traced value of the lowered [model_init], and the
    second to the eighth result. *)
Definition unsharded_results (r : SetupResult) :=
  let '(model_init_lowered, dtype, h, mesh, params_pjit_shape, rotated_params,
        kv_caches, token_chunk_shape, _, _, _) := r in
  (lo_mesh model_init_lowered, lo_args model_init_lowered,
   lo_body model_init_lowered, dtype, h, mesh, params_pjit_shape,
   rotated_params, kv_caches, token_chunk_shape).


(** ** Resolution under a rule table in effect *)

Section UnderTable.

Variable table : RuleTable.
Variable s : State.
Variable rest : list RuleTable.
Hypothesis in_effect : rules_ctx s = table :: rest.

Lemma logical_to_physical_in_effect (spec : LogicalSpec) :
  logical_to_physical spec s = Some (resolve table spec, s).
Proof.
  unfold logical_to_physical, partitioning.logical_to_physical.
  now rewrite in_effect.
Qed.

Lemma mapM_logical_to_physical (l : list LogicalSpec) :
  mapM logical_to_physical l s = Some (map (resolve table) l, s).
Proof.
  induction l as [|spec l IH]; [reflexivity|].
  cbn [mapM map]. unfold bind.
  rewrite logical_to_physical_in_effect, IH. reflexivity.
Qed.

Ltac run_resolution :=
  repeat (progress (cbn; cbv [bind ret];
                    rewrite ?logical_to_physical_in_effect));
  reflexivity.

Lemma resolve_Weights (w : Weights LogicalSpec) :
  tree_map_M logical_to_physical w s = Some (tree_map (resolve table) w, s).
Proof. destruct w as [[a b c] d e f]. run_resolution. Qed.

Lemma resolve_Chunk (c : Chunk LogicalSpec) :
  tree_map_M logical_to_physical c s = Some (tree_map (resolve table) c, s).
Proof. destruct c as [a b]. run_resolution. Qed.

Lemma resolve_FullChunkResult (r : FullChunkResult LogicalSpec) :
  tree_map_M logical_to_physical r s = Some (tree_map (resolve table) r, s).
Proof.
  destruct r as [a m]. cbn. cbv [bind ret].
  now rewrite logical_to_physical_in_effect, mapM_logical_to_physical.
Qed.

End UnderTable.

(** ** The value [model_init] builds *)

Lemma nonneg_dims_iff (dims : list Z) :
  nonneg_dims dims = true <-> Forall (fun d => 0 <= d) dims.
Proof.
  unfold nonneg_dims. rewrite forallb_forall, Forall_forall.
  split; intros H d Hd; specialize (H d Hd); lia.
Qed.

Lemma reshape_shape_exact (size : Z) (dims : list Z) :
  nonneg_dims dims = true -> prod_dims dims = size ->
  reshape_shape size dims = Some dims.
Proof.
  intros Hdims Hsize. apply nonneg_dims_iff in Hdims.
  rewrite Forall_forall in Hdims.
  unfold reshape_shape.
  replace (forallb (fun d => -1 <=? d) dims) with true.
  - replace (count_occ Z.eq_dec dims (-1)) with O.
    + apply Z.eqb_eq in Hsize. now rewrite Hsize.
    + symmetry. apply count_occ_not_In. intros Hin.
      specialize (Hdims _ Hin). lia.
  - symmetry. apply forallb_forall. intros d Hd.
    specialize (Hdims _ Hd). lia.
Qed.

Lemma normal_nonneg (key : Key) (shp : list Z) (dt : DType) :
  Forall (fun d => 0 <= d) shp ->
  random.normal key shp dt = Some (mkArray shp dt (Normal key)).
Proof.
  intros H. apply nonneg_dims_iff in H. unfold random.normal. now rewrite H.
Qed.

Lemma ones_nonneg (shp : list Z) (dt : DType) :
  Forall (fun d => 0 <= d) shp ->
  jnp.ones shp dt = Some (mkArray shp dt Ones).
Proof.
  intros H. apply nonneg_dims_iff in H. unfold jnp.ones. now rewrite H.
Qed.

Lemma wrap_int32_fits (z : Z) :
  - 2 ^ 31 <= z < 2 ^ 31 -> wrap_int32 z = z.
Proof.
  intros H. unfold wrap_int32. rewrite Z.mod_small; lia.
Qed.


Lemma map_wrap_int32_fits (l : list Z) :
  Forall (fun z => - 2 ^ 31 <= z < 2 ^ 31) l -> map wrap_int32 l = l.
Proof.
  induction 1 as [|z l Hz Hl IH]; [reflexivity|].
  cbn [map]. now rewrite wrap_int32_fits, IH.
Qed.

Lemma arange_nonneg (stop : Z) :
  0 <= stop ->
  jnp.arange stop
  = Some (mkArray [stop] int32
                  (Ints (map wrap_int32
                             (map Z.of_nat (seq 0 (Z.to_nat stop)))))).
Proof.
  intros H. unfold jnp.arange.
  now replace (0 <=? stop) with true by (symmetry; apply Z.leb_le; lia).
Qed.

Lemma array_list_repeat (x n : Z) :
  0 <= n ->
  jnp.array (list_repeat x n)
  = mkArray [n] (if n =? 0 then float32 else int32)
            (Ints (map wrap_int32 (list_repeat x n))).
Proof.
  intros Hn. unfold jnp.array, list_repeat.
  rewrite repeat_length, Z2Nat.id by assumption.
  destruct (Z.eqb_spec n 0) as [->|Hne]; [reflexivity|].
  destruct (Z.to_nat n) eqn:E; [lia|reflexivity].
Qed.

(** With dimensions that are not negative, [model_init] returns in every
    state and leaves the state as it is. *)
Lemma model_init_value_wrapped (h : HParams) (dt : DType)
  (batch_size seq_len : Z) (s : State) :
  nonneg_dims (model_dims h) = true ->
  0 <= batch_size -> 0 <= seq_len ->
  model_init h dt batch_size seq_len tt s
  = Some ((init_params h dt, init_chunk_wrapped batch_size seq_len), s).
Proof.
  intros Hdims Hb Hs.
  apply nonneg_dims_iff in Hdims. unfold model_dims in Hdims.
  repeat match goal with
         | H : Forall _ (_ :: _) |- _ => inversion H; subst; clear H
         end.
  assert (Hhalf : 0 <= qkv h / 2) by (apply Z.div_pos; lia).
  unfold model_init. cbn [random.split seq map].
  rewrite !normal_nonneg, !ones_nonneg
    by (repeat constructor; lia).
  rewrite arange_nonneg by nia.
  cbv [bind lift ret]. unfold jnp.reshape. cbn [shape dtype contents].
  rewrite reshape_shape_exact.
  - rewrite array_list_repeat by assumption. reflexivity.
  - apply nonneg_dims_iff. repeat constructor; lia.
  - cbn. lia.
Qed.

(** A token count that fits 32 bits leaves every integer of the chunk as
    it is. *)
Lemma init_chunk_in_range (batch_size seq_len : Z) :
  0 <= batch_size -> 0 <= seq_len -> batch_size * seq_len < 2 ^ 31 ->
  init_chunk_wrapped batch_size seq_len = init_chunk batch_size seq_len.
Proof.
  intros Hb Hs Hfit. unfold init_chunk_wrapped, init_chunk.
  rewrite !map_wrap_int32_fits; [reflexivity| |].
  - unfold list_repeat. apply Forall_forall. intros z Hz.
    destruct (Z.to_nat batch_size) eqn:E; [contradiction|].
    apply repeat_spec in Hz. subst z. nia.
  - apply Forall_forall. intros z Hz.
    apply in_map_iff in Hz. destruct Hz as (k & <- & Hk).
    apply in_seq in Hk. lia.
Qed.

(** With dimensions that are not negative and a token count that fits the
    integer type, [model_init] returns in every state and leaves the state
    as it is. *)
Lemma model_init_value (h : HParams) (dt : DType) (batch_size seq_len : Z)
  (s : State) :
  nonneg_dims (model_dims h) = true ->
  0 <= batch_size -> 0 <= seq_len -> batch_size * seq_len < 2 ^ 31 ->
  model_init h dt batch_size seq_len tt s
  = Some ((init_params h dt, init_chunk batch_size seq_len), s).
Proof.
  intros Hdims Hb Hs Hfit.
  rewrite model_init_value_wrapped by assumption.
  now rewrite init_chunk_in_range.
Qed.

(** The dimensions of the hyperparameters of [setup] are not negative as
    soon as the two derived widths are not. *)
Lemma setup_dims_nonneg :
  0 <= q_wi_per_head setup_hparams -> 0 <= o_wo_per_head setup_hparams ->
  nonneg_dims (model_dims setup_hparams) = true.
Proof.
  intros Hq Ho. apply nonneg_dims_iff. unfold model_dims.
  repeat constructor; cbn; try lia; assumption.
Qed.

(** [model_init] neither reads nor changes the state it runs in. *)
Lemma model_init_reads_no_state (h : HParams) (dt : DType)
  (batch_size seq_len : Z) (s s' : State) :
  model_init h dt batch_size seq_len tt s
  = match model_init h dt batch_size seq_len tt s' with
    | Some (v, _) => Some (v, s)
    | None => None
    end.
Proof.
  unfold model_init. cbn [random.split seq map]. cbv [bind].
  repeat match goal with
         | |- context [lift ?o] => destruct o; cbn [lift]; cbv [ret raise]
         end; reflexivity.
Qed.

Lemma model_init_returns_anywhere (h : HParams) (dt : DType)
  (batch_size seq_len : Z) (s s1 : State)
  (v : Weights Array * Chunk Array) :
  model_init h dt batch_size seq_len tt s = Some (v, s1) ->
  forall s' : State, model_init h dt batch_size seq_len tt s' = Some (v, s').
Proof.
  intros H s'.
  rewrite (model_init_reads_no_state h dt batch_size seq_len s' s), H.
  reflexivity.
Qed.

Lemma model_init_raises_anywhere (h : HParams) (dt : DType)
  (batch_size seq_len : Z) (s : State) :
  model_init h dt batch_size seq_len tt s = None ->
  forall s' : State, model_init h dt batch_size seq_len tt s' = None.
Proof.
  intros H s'.
  rewrite (model_init_reads_no_state h dt batch_size seq_len s' s), H.
  reflexivity.
Qed.

(** What fills the arrays of a value [model_init] returns, whatever the
    dimensions; it returns only for a token count that is not negative. *)
Lemma model_init_contents (h : HParams) (dt : DType)
  (batch_size seq_len : Z) (s s' : State) (p : Weights Array)
  (c : Chunk Array) :
  model_init h dt batch_size seq_len tt s = Some ((p, c), s') ->
  tree_map contents p = tree_map contents (init_params h dt)
  /\ tree_map contents c
     = tree_map contents (init_chunk_wrapped batch_size seq_len)
  /\ 0 <= batch_size * seq_len.
Proof.
  unfold model_init. cbn [random.split seq map]. cbv [bind].
  unfold random.normal, jnp.ones, jnp.arange, jnp.reshape, jnp.array.
  destruct (Z.leb_spec 0 (batch_size * seq_len)) as [Hstop|Hstop].
  - repeat match goal with
           | |- context [if ?b then _ else _] =>
               match type of b with
               | bool => destruct b; cbn [lift]; cbv [ret raise];
                         try discriminate
               end
           | |- context [match reshape_shape ?a ?b with _ => _ end] =>
               destruct (reshape_shape a b); cbn [lift]; cbv [ret raise];
               try discriminate
           end.
    intros H. injection H as <- <- <-. repeat split. exact Hstop.
  - repeat match goal with
           | |- context [if ?b then _ else _] =>
               match type of b with
               | bool => destruct b; cbn [lift]; cbv [ret raise];
                         try discriminate
               end
           end.
Qed.

(** ** What [setup] and [lower] return *)

(** Under a rule table in effect, [setup] returns as soon as [model_init]
    does, leaves the state as it found it, and its eleven results are
    these. *)
Lemma setup_value (mesh : Mesh) (batch_size : Z) (seq_len : option Z)
  (s : State) (table : RuleTable) (rest : list RuleTable) :
  rules_ctx s = table :: rest ->
  let params_sharding := tree_map (resolve table) Weights_logical_axes in
  let chunk_sharding :=
    tree_map (resolve table) (mkChunk [None; None] [None]) in
  let result_sharding :=
    tree_map (resolve table) FullChunkResult_logical_axes in
  setup mesh batch_size seq_len s
  = match model_init setup_hparams float32 batch_size
                     (seq_len_given seq_len) tt s
    with
    | Some (v, _) =>
        Some ((mkLowered mesh tt (params_sharding, chunk_sharding) tt v,
               float32,
               setup_hparams,
               mesh,
               tree_map aval (fst v),
               tree_map aval (fst v),
               [],
               tree_map aval (snd v),
               chunk_sharding,
               params_sharding,
               result_sharding), s)
    | None => None
    end.
Proof.
  intros Hctx. cbv zeta. unfold setup. cbv [bind].
  rewrite (@resolve_Weights table s rest Hctx),
    (@resolve_Chunk table s rest Hctx),
    (@resolve_FullChunkResult table s rest Hctx).
  fold setup_hparams.
  unfold with_mesh, pjit_lower, eval_shape.
  cbn [rules_ctx mesh_ctx calls]. cbv [bind].
  destruct (model_init setup_hparams float32 batch_size
              (seq_len_given seq_len) tt s)
    as [[[p c] s1]|] eqn:E.
  - repeat (rewrite (model_init_returns_anywhere _ _ _ _ _ E);
            cbv beta iota delta [ret]).
    cbn [rules_ctx mesh_ctx calls tl fst snd].
    destruct s; reflexivity.
  - rewrite !(model_init_raises_anywhere _ _ _ _ _ E). reflexivity.
Qed.

Lemma lower_device_mesh :
  np.reshape (np.array (exporter.fake_devices 8 "tpu")) [2; 2; 2]
  = Some (devices lower_mesh).
Proof. reflexivity. Qed.

Lemma lower_mesh_built :
  maps.Mesh (devices lower_mesh) ["x"; "y"; "z"]%string = Some lower_mesh.
Proof. reflexivity. Qed.

(** [lower] returns as soon as [model_init] does on a batch of 8 rows of 32
    tokens; it leaves the ambient contexts as it found them and has made one
    call of [make_rules_two_d] and one of [infer_xmap]. *)
Lemma lower_value (s : State) :
  let table := make_rules_two_d_table AXES_YZX false in
  let params_sharding := tree_map (resolve table) Weights_logical_axes in
  let chunk_sharding :=
    tree_map (resolve table) (mkChunk [None; None] [None]) in
  let result_sharding :=
    tree_map (resolve table) FullChunkResult_logical_axes in
  lower s
  = match model_init setup_hparams float32 8 32 tt s with
    | Some (v, _) =>
        Some
          ([("xmap_transformer_init"%string,
             ExportedInit
               (mkLowered lower_mesh tt (params_sharding, chunk_sharding)
                          tt v));
            ("xmap_transformer_fwd"%string,
             ExportedFwd
               (mkLowered lower_mesh (params_sharding, chunk_sharding)
                          result_sharding
                          (tree_map aval (fst v), tree_map aval (snd v))
                          (mkShardMapped
                             lower_mesh (params_sharding, chunk_sharding)
                             result_sharding
                             (InferXmapResult (lower_infer_args v)))))],
           mkAmbient (rules_ctx s) (mesh_ctx s)
                     (calls s ++ [CallMakeRulesTwoD AXES_YZX false;
                                  CallInferXmap (lower_infer_args v)]))
    | None => None
    end.
Proof.
  cbv zeta. unfold lower. cbv [bind].
  rewrite lower_device_mesh. cbv beta iota delta [lift ret].
  rewrite lower_mesh_built. cbv beta iota delta [lift ret].
  unfold make_rules_two_d, record_call. cbv beta iota delta [bind ret].
  set (table := make_rules_two_d_table AXES_YZX false).
  unfold with_rules at 1. cbn [rules_ctx mesh_ctx calls partitioning.rules].
  rewrite (@setup_value lower_mesh 8 None
             (mkAmbient (table :: rules_ctx s) (mesh_ctx s)
                        (calls s ++ [CallMakeRulesTwoD AXES_YZX false]))
             table (rules_ctx s) eq_refl).
  cbv zeta. change (seq_len_given None) with 32.
  destruct (model_init setup_hparams float32 8 32 tt s)
    as [[v s1]|] eqn:E.
  - rewrite (model_init_returns_anywhere _ _ _ _ _ E).
    cbv beta iota.
    unfold with_mesh, pjit_lower, pjit_fwd, shard_map.shard_map, fwd,
      infer_xmap, record_call.
    cbn [rules_ctx mesh_ctx calls tl fst snd]. cbv beta iota delta [bind ret].
    cbn [rules_ctx mesh_ctx calls tl fst snd].
    rewrite <- app_assoc. reflexivity.
  - rewrite (model_init_raises_anywhere _ _ _ _ _ E). reflexivity.
Qed.

(** With derived widths that are not negative, [model_init] returns on the
    batch [lower] asks for. *)
Lemma lower_model_init (s : State) :
  0 <= q_wi_per_head setup_hparams -> 0 <= o_wo_per_head setup_hparams ->
  model_init setup_hparams float32 8 32 tt s
  = Some ((init_params setup_hparams float32, init_chunk 8 32), s).
Proof.
  intros Hq Ho. apply model_init_value; try lia.
  now apply setup_dims_nonneg.
Qed.

Lemma new_calls_appended (s : State) (rs : list RuleTable) (ms : list Mesh)
  (l : list Call) :
  new_calls s (mkAmbient rs ms (calls s ++ l)) = l.
Proof.
  unfold new_calls. cbn [calls].
  induction (calls s) as [|c cs IH]; [reflexivity|exact IH].
Qed.

Lemma aval_with_contents (g : Contents -> Contents) (a : Array) :
  aval (with_contents g a) = aval a.
Proof. reflexivity. Qed.


(** ** The claims *)



(** C4.  The attention strategy and the batch_unsharded flag handed to the
    layer executor are those the rule table was built from: [lower] calls
    [make_rules_two_d] once and [infer_xmap] once, and the pair
    (attn_sharding, batch_unsharded) of the first call is the pair
    (attn_all_to_all, batch_unsharded) of the second. *)
Theorem strategy_matches_rule_table (s : State) :
  0 <= q_wi_per_head setup_hparams -> 0 <= o_wo_per_head setup_hparams ->
  exists (out : list (string * Exported)) (s' : State)
         (attn_sharding : AttnAllToAll) (unsharded : bool)
         (args : InferXmapArgs),
    lower s = Some (out, s')
    /\ new_calls s s'
       = [CallMakeRulesTwoD attn_sharding unsharded; CallInferXmap args]
    /\ (attn_all_to_all args, batch_unsharded args)
       = (attn_sharding, unsharded)
    /\ attn_sharding = AXES_YZX
    /\ unsharded = false.
Proof.
  intros Hq Ho. rewrite lower_value, (lower_model_init s Hq Ho). cbv zeta.
  do 5 eexists. split; [reflexivity|].
  rewrite new_calls_appended. repeat split.
Qed.

(** C5.  [model_init] constructs every weight with the shape the data model
    prescribes, read from the hyperparameters: q_wi is
    [layers, heads, embed, q_wi_per_head], kv is [layers, embed, 1, 2*qkv],
    o_wo is [layers, heads, o_wo_per_head, embed], sin and cos are
    [max_len, qkv/2] and embedding is [vocab, embed]. *)
Theorem model_init_weight_shapes (h : HParams) (dt : DType)
  (batch_size seq_len : Z) (s : State) :
  nonneg_dims (model_dims h) = true ->
  0 <= batch_size -> 0 <= seq_len -> batch_size * seq_len < 2 ^ 31 ->
  exists (p : Weights Array) (c : Chunk Array),
    model_init h dt batch_size seq_len tt s = Some ((p, c), s)
    /\ shape (q_wi (layer p)) = [layers h; heads h; embed h; q_wi_per_head h]
    /\ shape (kv (layer p)) = [layers h; embed h; 1; 2 * qkv h]
    /\ shape (o_wo (layer p)) = [layers h; heads h; o_wo_per_head h; embed h]
    /\ shape (sin p) = [max_len h; qkv h / 2]
    /\ shape (cos p) = [max_len h; qkv h / 2]
    /\ shape (embedding p) = [vocab h; embed h].
Proof.
  intros Hdims Hb Hs Hfit.
  rewrite model_init_value by assumption.
  do 2 eexists. repeat split.
Qed.



(** C9.  [model_init] is deterministic.  It takes no argument and consults
    no state: two calls, in whatever states, both raise or both return the
    same weights and the same chunk, and a call leaves the state as it found
    it.  Its randomness comes from the keys that splitting PRNGKey(0) in
    five gives, and its tokens are arange(batch_size * seq_len), integers
    being stored in 32 bits. *)
Theorem model_init_deterministic (h : HParams) (dt : DType)
  (batch_size seq_len : Z) :
  (forall s1 s2 : State,
      option_map fst (model_init h dt batch_size seq_len tt s1)
      = option_map fst (model_init h dt batch_size seq_len tt s2))
  /\ (forall (s s' : State) (p : Weights Array) (c : Chunk Array),
        model_init h dt batch_size seq_len tt s = Some ((p, c), s') ->
        s' = s
        /\ contents (q_wi (layer p)) = Normal (nth 1 (random.split (PRNGKey 0) 5) (PRNGKey 0))
        /\ contents (kv (layer p)) = Normal (nth 2 (random.split (PRNGKey 0) 5) (PRNGKey 0))
        /\ contents (o_wo (layer p)) = Normal (nth 3 (random.split (PRNGKey 0) 5) (PRNGKey 0))
        /\ contents (embedding p) = Normal (nth 4 (random.split (PRNGKey 0) 5) (PRNGKey 0))
        /\ contents (sin p) = Ones
        /\ contents (cos p) = Ones
        /\ contents (tokens c)
           = Ints (map wrap_int32
                       (map Z.of_nat
                            (seq 0 (Z.to_nat (batch_size * seq_len)))))
        /\ contents (lengths c)
           = Ints (map wrap_int32 (list_repeat seq_len batch_size))).
Proof.
  split.
  - intros s1 s2.
    rewrite (model_init_reads_no_state h dt batch_size seq_len s1 s2).
    destruct (model_init h dt batch_size seq_len tt s2) as [[v s3]|];
      reflexivity.
  - intros s s' p c H. split.
    + rewrite (model_init_returns_anywhere _ _ _ _ _ H s) in H.
      now injection H.
    + destruct (model_init_contents _ _ _ _ _ H) as (Hp & Hc & _).
      destruct p as [[a1 a2 a3] a4 a5 a6], c as [b1 b2].
      cbn in Hp, Hc. injection Hp as E1 E2 E3 E4 E5 E6.
      injection Hc as F1 F2. cbn. repeat split; assumption.
Qed.


(** C6, as the program has it.  [setup] takes no rule table: it resolves
    against the table of the innermost [with rules:] in effect.  For fixed
    arguments, two runs under the same innermost table give the same
    results, whatever else the ambient state holds, and the shardings are
    the resolutions under that table. *)
Theorem setup_determined_by_table_in_effect (mesh : Mesh) (batch_size : Z)
  (seq_len : option Z) (s1 s2 : State) (table : RuleTable)
  (rest1 rest2 : list RuleTable) :
  rules_ctx s1 = table :: rest1 ->
  rules_ctx s2 = table :: rest2 ->
  option_map fst (setup mesh batch_size seq_len s1)
  = option_map fst (setup mesh batch_size seq_len s2)
  /\ (forall (r : SetupResult) (s' : State),
        setup mesh batch_size seq_len s1 = Some (r, s') ->
        shardings_of r
        = (tree_map (resolve table) Weights_logical_axes,
           tree_map (resolve table) (mkChunk [None; None] [None]),
           tree_map (resolve table) FullChunkResult_logical_axes)).
Proof.
  intros H1 H2.
  rewrite (setup_value mesh batch_size seq_len s1 H1),
    (setup_value mesh batch_size seq_len s2 H2). cbv zeta.
  rewrite (model_init_reads_no_state
             setup_hparams float32 batch_size (seq_len_given seq_len) s1 s2).
  destruct (model_init setup_hparams float32 batch_size
              (seq_len_given seq_len) tt s2) as [[v s3]|].
  - split; [reflexivity|]. intros r s' H. injection H as <- _. reflexivity.
  - split; [reflexivity|]. intros r s' H. discriminate.
Qed.

(** ** Further properties of the exporter *)

Lemma arange_data_nth (n : Z) (k : Z) :
  0 <= k < n ->
  nth_error (map Z.of_nat (seq 0 (Z.to_nat n))) (Z.to_nat k) = Some k.
Proof.
  intros H. rewrite nth_error_map, nth_error_seq.
  replace (Nat.ltb (Z.to_nat k) (Z.to_nat n)) with true
    by (symmetry; apply Nat.ltb_lt; lia).
  cbn. f_equal. lia.
Qed.

Lemma arange_data_In (n : Z) (t : Z) :
  In t (map Z.of_nat (seq 0 (Z.to_nat n))) <-> 0 <= t < n.
Proof.
  rewrite in_map_iff. split.
  - intros (k & <- & Hk). apply in_seq in Hk. lia.
  - intros H. exists (Z.to_nat t). split; [lia|]. apply in_seq. lia.
Qed.

Lemma arange_data_NoDup (n : Z) :
  NoDup (map Z.of_nat (seq 0 (Z.to_nat n))).
Proof.
  generalize (seq_NoDup (Z.to_nat n) 0).
  induction 1 as [|k l Hk Hl IH]; cbn; constructor; [|exact IH].
  rewrite in_map_iff. intros (j & Hj & Hin).
  apply Nat2Z.inj in Hj. now subst.
Qed.

(** X1.  For a batch size and a sequence length that are not negative and
    a token count below 2^31, the tokens [model_init] builds number the
    positions of the batch in row-major order: the token at row [row] and
    column [col] is [row * seq_len + col], so every row continues where the
    one before it stops, there are [batch_size * seq_len] tokens and no two
    are equal. *)
Theorem tokens_enumerate_row_major (h : HParams) (dt : DType)
  (batch_size seq_len : Z) (s : State) :
  nonneg_dims (model_dims h) = true ->
  0 <= batch_size -> 0 <= seq_len -> batch_size * seq_len < 2 ^ 31 ->
  exists (p : Weights Array) (c : Chunk Array) (data : list Z),
    model_init h dt batch_size seq_len tt s = Some ((p, c), s)
    /\ contents (tokens c) = Ints data
    /\ Z.of_nat (List.length data) = batch_size * seq_len
    /\ NoDup data
    /\ (forall row col : Z,
          0 <= row < batch_size -> 0 <= col < seq_len ->
          entry_at (tokens c) row col = Some (row * seq_len + col)).
Proof.
  intros Hdims Hb Hs Hfit.
  rewrite model_init_value by assumption.
  do 3 eexists. split; [reflexivity|]. split; [reflexivity|].
  split; [|split].
  - rewrite length_map, length_seq. nia.
  - apply arange_data_NoDup.
  - intros row col Hrow Hcol. unfold entry_at, init_chunk.
    cbn [tokens shape contents].
    replace ((0 <=? row) && (row <? batch_size) && (0 <=? col)
             && (col <? seq_len)) with true
      by (symmetry; rewrite !andb_true_iff, !Z.leb_le, !Z.ltb_lt; lia).
    apply arange_data_nth. nia.
Qed.

(** X2.  [model_init] does not compare the token ids with the vocabulary.
    For a batch size and a sequence length that are not negative and a
    token count below 2^31, the ids are those below
    [batch_size * seq_len]: all of them index a row of the embedding table,
    which has [vocab] rows, exactly when [batch_size * seq_len <= vocab],
    and for a larger token count the chunk holds the id [vocab], which
    indexes no row. *)
Theorem tokens_within_vocabulary (h : HParams) (dt : DType)
  (batch_size seq_len : Z) (s : State) :
  nonneg_dims (model_dims h) = true ->
  0 <= batch_size -> 0 <= seq_len -> batch_size * seq_len < 2 ^ 31 ->
  exists (p : Weights Array) (c : Chunk Array) (data : list Z),
    model_init h dt batch_size seq_len tt s = Some ((p, c), s)
    /\ contents (tokens c) = Ints data
    /\ shape (embedding p) = [vocab h; embed h]
    /\ ((forall t : Z, In t data -> 0 <= t < vocab h)
        <-> batch_size * seq_len <= vocab h)
    /\ (vocab h < batch_size * seq_len -> In (vocab h) data).
Proof.
  intros Hdims Hb Hs Hfit.
  rewrite model_init_value by assumption.
  do 3 eexists. split; [reflexivity|]. split; [reflexivity|].
  split; [reflexivity|].
  apply nonneg_dims_iff in Hdims. unfold model_dims in Hdims.
  rewrite Forall_forall in Hdims.
  assert (Hv : 0 <= vocab h) by (apply Hdims; do 5 right; left; reflexivity).
  split; [|intros Hgt; apply arange_data_In; lia].
  split.
  - intros Hall.
    destruct (Z_le_gt_dec (batch_size * seq_len) (vocab h)) as [Hle|Hgt];
      [exact Hle|].
    assert (Hin : In (vocab h)
                     (map Z.of_nat
                          (seq 0 (Z.to_nat (batch_size * seq_len)))))
      by (apply arange_data_In; lia).
    specialize (Hall _ Hin). lia.
  - intros Hle t Hin. apply arange_data_In in Hin. lia.
Qed.

(** X3.  An empty batch changes the element type of [lengths]: the list
    [[seq_len] * batch_size] is empty, and [jnp.array] of an empty list is an
    array of floats.  So [lengths] has the integer type of [tokens] exactly
    when the batch has a row. *)
Theorem lengths_dtype_of_empty_batch (h : HParams) (dt : DType)
  (batch_size seq_len : Z) (s : State) :
  nonneg_dims (model_dims h) = true ->
  0 <= batch_size -> 0 <= seq_len -> batch_size * seq_len < 2 ^ 31 ->
  exists (p : Weights Array) (c : Chunk Array),
    model_init h dt batch_size seq_len tt s = Some ((p, c), s)
    /\ dtype (tokens c) = int32
    /\ (dtype (lengths c) = dtype (tokens c) <-> 0 < batch_size)
    /\ (batch_size = 0 ->
        dtype (lengths c) = float32
        /\ shape (lengths c) = [0]
        /\ shape (tokens c) = [0; seq_len]
        /\ contents (tokens c) = Ints []
        /\ contents (lengths c) = Ints []).
Proof.
  intros Hdims Hb Hs Hfit.
  rewrite model_init_value by assumption.
  do 2 eexists. split; [reflexivity|]. split; [reflexivity|].
  unfold init_chunk. cbn [tokens lengths dtype shape contents]. split.
  - destruct (Z.eqb_spec batch_size 0) as [->|Hne].
    + split; [discriminate|lia].
    + split; [lia|reflexivity].
  - intros ->. repeat split.
Qed.

(** X4.  [lower] is self-contained: it enters its own rule table and its
    own mesh, so what it returns is the same from every ambient state, and
    when it returns the contexts in effect are those it found and it has
    added two calls to the log. *)
Theorem lower_independent_of_ambient_state :
  (forall s1 s2 : State,
      option_map fst (lower s1) = option_map fst (lower s2))
  /\ (forall (s s' : State) (out : list (string * Exported)),
        lower s = Some (out, s') ->
        rules_ctx s' = rules_ctx s
        /\ mesh_ctx s' = mesh_ctx s
        /\ exists added : list Call,
             calls s' = calls s ++ added /\ List.length added = 2%nat).
Proof.
  split.
  - intros s1 s2. rewrite !lower_value. cbv zeta.
    rewrite (model_init_reads_no_state setup_hparams float32 8 32 s1 s2).
    destruct (model_init setup_hparams float32 8 32 tt s2) as [[v s3]|];
      reflexivity.
  - intros s s' out. rewrite lower_value. cbv zeta.
    destruct (model_init setup_hparams float32 8 32 tt s) as [[v s3]|];
      [|discriminate].
    intros H. injection H as _ <-. cbn [rules_ctx mesh_ctx calls].
    split; [reflexivity|]. split; [reflexivity|].
    eexists. split; reflexivity.
Qed.


(** X6.  The rule table in effect changes the sharding annotations and
    nothing else: two runs of [setup] with the same arguments under two
    tables, in states that may differ in everything, return, when both
    return, the same mesh, traced [model_init], element type,
    hyperparameters, abstract weights, cache and abstract chunk.  A run that
    returns leaves the state as it found it; the lowered [model_init]
    carries the mesh argument, whatever meshes are in effect, and the
    shardings [setup] returns for the weights and the chunk; and the
    abstract weights and chunk [setup] returns are the shapes of what the
    lowered [model_init] traces. *)
Theorem rule_table_changes_only_shardings (mesh : Mesh) (batch_size : Z)
  (seq_len : option Z) (s1 s2 : State) (table1 table2 : RuleTable)
  (rest1 rest2 : list RuleTable) :
  rules_ctx s1 = table1 :: rest1 ->
  rules_ctx s2 = table2 :: rest2 ->
  (forall (r1 r2 : SetupResult) (s1' s2' : State),
      setup mesh batch_size seq_len s1 = Some (r1, s1') ->
      setup mesh batch_size seq_len s2 = Some (r2, s2') ->
      unsharded_results r1 = unsharded_results r2)
  /\ (forall (r : SetupResult) (s' : State),
        setup mesh batch_size seq_len s1 = Some (r, s') ->
        s' = s1
        /\ exists (v : Weights Array * Chunk Array) csh psh rsh,
             r = (mkLowered mesh tt (psh, csh) tt v,
                  float32, setup_hparams, mesh, tree_map aval (fst v),
                  tree_map aval (fst v), [], tree_map aval (snd v),
                  csh, psh, rsh)).
Proof.
  intros H1 H2.
  rewrite (setup_value mesh batch_size seq_len s1 H1),
    (setup_value mesh batch_size seq_len s2 H2). cbv zeta.
  rewrite (model_init_reads_no_state
             setup_hparams float32 batch_size (seq_len_given seq_len) s1 s2).
  destruct (model_init setup_hparams float32 batch_size
              (seq_len_given seq_len) tt s2) as [[v s3]|].
  - split.
    + intros r1 r2 s1' s2' Hr1 Hr2.
      injection Hr1 as <- _. injection Hr2 as <- _. reflexivity.
    + intros r s' H. injection H as <- <-.
      split; [reflexivity|]. repeat eexists.
  - split; [intros r1 r2 s1' s2' Hr1; discriminate Hr1|].
    intros r s' H. discriminate.
Qed.

End Exporter.

(** ** The instance, run *)

Local Notation "'IState'" :=
  (State Instance.RuleTable Instance.AttnAllToAll unit).

Local Notation "'model_init_i'" :=
  (@model_init Instance.RuleTable Instance.AttnAllToAll
               Instance.q_wi_per_head Instance.o_wo_per_head unit).

Local Notation "'setup_i'" :=
  (@setup Instance.RuleTable Instance.resolve Instance.AttnAllToAll
          Instance.q_wi_per_head Instance.o_wo_per_head
          Instance.Weights_logical_axes
          Instance.FullChunkResult_logical_axes unit).

Local Notation "'lower_i'" :=
  (@lower Instance.RuleTable Instance.resolve Instance.AttnAllToAll
          Instance.AXES_YZX Instance.make_rules_two_d_table
          Instance.q_wi_per_head Instance.o_wo_per_head
          Instance.Weights_logical_axes
          Instance.FullChunkResult_logical_axes unit).

(** The state of a fresh process, and a state inside [with rules:]. *)
Local Notation "'fresh'" := (mkAmbient [] [] [] : IState).

Local Notation "'under' table" := (mkAmbient [table] [] [] : IState)
  (at level 10, table at level 9).

Ltac by_evaluation :=
  solve [reflexivity | vm_compute; discriminate | vm_compute; reflexivity].

(** C6, as the claim states it, fails.  With the mesh, the batch size and
    the sequence length fixed, a run of [setup] under a table that puts the
    heads on mesh axis x and a run under a table that puts them on y return
    different shardings. *)
Lemma setup_shardings_follow_ambient_rules :
  exists (r1 r2 : SetupResult unit) (s1 s2 : IState),
    setup_i lower_mesh 8 None (under (Instance.heads_on "x")) = Some (r1, s1)
    /\ setup_i lower_mesh 8 None (under (Instance.heads_on "y"))
       = Some (r2, s2)
    /\ shardings_of r1 <> shardings_of r2.
Proof.
  do 4 eexists. split; [vm_compute; reflexivity|].
  split; [vm_compute; reflexivity|].
  vm_compute. intros H. discriminate H.
Qed.




Lemma strategy_matches_rule_table_witness :
  0 <= Instance.q_wi_per_head setup_hparams
  /\ 0 <= Instance.o_wo_per_head setup_hparams
  /\ (exists out s' args,
         lower_i fresh = Some (out, s')
         /\ new_calls fresh s'
            = [CallMakeRulesTwoD unit Instance.AXES_YZX false;
               CallInferXmap args]
         /\ attn_all_to_all args = Instance.AXES_YZX
         /\ batch_unsharded args = false).
Proof.
  assert (Hq : 0 <= Instance.q_wi_per_head setup_hparams) by by_evaluation.
  assert (Ho : 0 <= Instance.o_wo_per_head setup_hparams) by by_evaluation.
  repeat split; try assumption.
  destruct (@strategy_matches_rule_table
              Instance.RuleTable Instance.resolve Instance.AttnAllToAll
              Instance.AXES_YZX Instance.make_rules_two_d_table
              Instance.q_wi_per_head Instance.o_wo_per_head
              Instance.Weights_logical_axes
              Instance.FullChunkResult_logical_axes unit fresh Hq Ho)
    as (out & s' & a & b & args & H & Hcalls & Hpair & -> & ->).
  injection Hpair as Ha Hb.
  exists out, s', args. repeat split; assumption.
Defined.

Lemma model_init_weight_shapes_witness :
  nonneg_dims (model_dims Instance.q_wi_per_head Instance.o_wo_per_head
                          setup_hparams) = true
  /\ 0 <= 8 /\ 0 <= 32 /\ 8 * 32 < 2 ^ 31
  /\ (exists p c,
         model_init_i setup_hparams float32 8 32 tt fresh
         = Some ((p, c), fresh)
         /\ shape (q_wi (layer p)) = [8; 16; 16; 8]
         /\ shape (kv (layer p)) = [8; 16; 1; 8]
         /\ shape (o_wo (layer p)) = [8; 16; 6; 16]
         /\ shape (sin p) = [256; 2]
         /\ shape (cos p) = [256; 2]
         /\ shape (embedding p) = [1024; 16]).
Proof.
  assert (Hd : nonneg_dims
                 (model_dims Instance.q_wi_per_head Instance.o_wo_per_head
                             setup_hparams) = true) by by_evaluation.
  assert (Hb : 0 <= 8) by by_evaluation.
  assert (Hs : 0 <= 32) by by_evaluation.
  assert (Hfit : 8 * 32 < 2 ^ 31) by by_evaluation.
  repeat split; try assumption.
  exact (@model_init_weight_shapes
           Instance.RuleTable Instance.AttnAllToAll
           Instance.q_wi_per_head Instance.o_wo_per_head unit
           setup_hparams float32 8 32 fresh Hd Hb Hs Hfit).
Defined.



Lemma model_init_deterministic_witness :
  exists p c,
    model_init_i setup_hparams float32 8 32 tt fresh = Some ((p, c), fresh)
    /\ option_map fst (model_init_i setup_hparams float32 8 32 tt
                                    (under (Instance.heads_on "x")))
       = Some (p, c)
    /\ contents (q_wi (layer p)) = Normal (Subkey (PRNGKey 0) 5 1)
    /\ contents (tokens c) = Ints (map Z.of_nat (seq 0 256)).
Proof.
  destruct (@model_init_deterministic
              Instance.RuleTable Instance.AttnAllToAll
              Instance.q_wi_per_head Instance.o_wo_per_head unit
              setup_hparams float32 8 32) as [Hsame Hkeys].
  destruct (model_init_i setup_hparams float32 8 32 tt fresh)
    as [[[p c] s']|] eqn:E; [|vm_compute in E; discriminate E].
  destruct (Hkeys fresh s' p c E) as (-> & Hq & _ & _ & _ & _ & _ & Ht & _).
  exists p, c. split; [reflexivity|].
  split; [|split; [exact Hq|exact Ht]].
  rewrite (Hsame (under (Instance.heads_on "x")) fresh), E. reflexivity.
Defined.


Lemma setup_determined_by_table_in_effect_witness :
  rules_ctx (under (Instance.heads_on "x")) = [Instance.heads_on "x"]
  /\ rules_ctx (mkAmbient [Instance.heads_on "x"; Instance.heads_on "y"]
                          [lower_mesh] [] : IState)
     = [Instance.heads_on "x"; Instance.heads_on "y"]
  /\ option_map fst (setup_i lower_mesh 8 None (under (Instance.heads_on "x")))
     = option_map fst
         (setup_i lower_mesh 8 None
                  (mkAmbient [Instance.heads_on "x"; Instance.heads_on "y"]
                             [lower_mesh] [])).
Proof.
  split; [reflexivity|]. split; [reflexivity|].
  apply (@setup_determined_by_table_in_effect
           Instance.RuleTable Instance.resolve Instance.AttnAllToAll
           Instance.q_wi_per_head Instance.o_wo_per_head
           Instance.Weights_logical_axes
           Instance.FullChunkResult_logical_axes unit
           lower_mesh 8 None
           (under (Instance.heads_on "x"))
           (mkAmbient [Instance.heads_on "x"; Instance.heads_on "y"]
                      [lower_mesh] [])
           (Instance.heads_on "x") [] [Instance.heads_on "y"]);
    reflexivity.
Defined.

Lemma tokens_enumerate_row_major_witness :
  nonneg_dims (model_dims Instance.q_wi_per_head Instance.o_wo_per_head
                          setup_hparams) = true
  /\ 0 <= 8 /\ 0 <= 32 /\ 8 * 32 < 2 ^ 31
  /\ (exists p c,
         model_init_i setup_hparams float32 8 32 tt fresh
         = Some ((p, c), fresh)
         /\ entry_at (tokens c) 3 5 = Some (3 * 32 + 5)).
Proof.
  assert (Hd : nonneg_dims
                 (model_dims Instance.q_wi_per_head Instance.o_wo_per_head
                             setup_hparams) = true) by by_evaluation.
  assert (Hb : 0 <= 8) by by_evaluation.
  assert (Hs : 0 <= 32) by by_evaluation.
  assert (Hfit : 8 * 32 < 2 ^ 31) by by_evaluation.
  repeat split; try assumption.
  destruct (@tokens_enumerate_row_major
              Instance.RuleTable Instance.AttnAllToAll
              Instance.q_wi_per_head Instance.o_wo_per_head unit
              setup_hparams float32 8 32 fresh Hd Hb Hs Hfit)
    as (p & c & data & H & _ & _ & _ & Hat).
  exists p, c. split; [exact H|]. apply Hat; lia.
Defined.

Lemma tokens_within_vocabulary_witness :
  nonneg_dims (model_dims Instance.q_wi_per_head Instance.o_wo_per_head
                          setup_hparams) = true
  /\ 0 <= 8 /\ 0 <= 32 /\ 8 * 32 < 2 ^ 31
  /\ (exists p c data,
         model_init_i setup_hparams float32 8 32 tt fresh
         = Some ((p, c), fresh)
         /\ contents (tokens c) = Ints data
         /\ (forall t : Z, In t data -> 0 <= t < 1024)).
Proof.
  assert (Hd : nonneg_dims
                 (model_dims Instance.q_wi_per_head Instance.o_wo_per_head
                             setup_hparams) = true) by by_evaluation.
  assert (Hb : 0 <= 8) by by_evaluation.
  assert (Hs : 0 <= 32) by by_evaluation.
  assert (Hfit : 8 * 32 < 2 ^ 31) by by_evaluation.
  repeat split; try assumption.
  destruct (@tokens_within_vocabulary
              Instance.RuleTable Instance.AttnAllToAll
              Instance.q_wi_per_head Instance.o_wo_per_head unit
              setup_hparams float32 8 32 fresh Hd Hb Hs Hfit)
    as (p & c & data & H & Hdata & _ & Hiff & _).
  exists p, c, data. split; [exact H|]. split; [exact Hdata|].
  apply Hiff. by_evaluation.
Defined.

Lemma lengths_dtype_of_empty_batch_witness :
  nonneg_dims (model_dims Instance.q_wi_per_head Instance.o_wo_per_head
                          setup_hparams) = true
  /\ 0 <= 0 /\ 0 <= 32 /\ 0 * 32 < 2 ^ 31
  /\ (exists p c,
         model_init_i setup_hparams float32 0 32 tt fresh
         = Some ((p, c), fresh)
         /\ dtype (tokens c) = int32
         /\ dtype (lengths c) = float32).
Proof.
  assert (Hd : nonneg_dims
                 (model_dims Instance.q_wi_per_head Instance.o_wo_per_head
                             setup_hparams) = true) by by_evaluation.
  assert (Hb : 0 <= 0) by by_evaluation.
  assert (Hs : 0 <= 32) by by_evaluation.
  assert (Hfit : 0 * 32 < 2 ^ 31) by by_evaluation.
  repeat split; try assumption.
  destruct (@lengths_dtype_of_empty_batch
              Instance.RuleTable Instance.AttnAllToAll
              Instance.q_wi_per_head Instance.o_wo_per_head unit
              setup_hparams float32 0 32 fresh Hd Hb Hs Hfit)
    as (p & c & H & Htok & _ & Hempty).
  exists p, c. split; [exact H|]. split; [exact Htok|].
  apply (Hempty eq_refl).
Defined.

Lemma lower_independent_of_ambient_state_witness :
  exists out s',
    lower_i fresh = Some (out, s')
    /\ rules_ctx s' = []
    /\ mesh_ctx s' = []
    /\ option_map fst
         (lower_i (mkAmbient [Instance.heads_on "x"] [lower_mesh] []))
       = Some out.
Proof.
  destruct (@lower_independent_of_ambient_state
              Instance.RuleTable Instance.resolve Instance.AttnAllToAll
              Instance.AXES_YZX Instance.make_rules_two_d_table
              Instance.q_wi_per_head Instance.o_wo_per_head
              Instance.Weights_logical_axes
              Instance.FullChunkResult_logical_axes unit)
    as [Hsame Hctx].
  destruct (lower_i fresh) as [[out s']|] eqn:E;
    [|vm_compute in E; discriminate E].
  destruct (Hctx fresh s' out E) as (Hr & Hm & _).
  exists out, s'. split; [reflexivity|]. split; [exact Hr|].
  split; [exact Hm|].
  rewrite (Hsame (mkAmbient [Instance.heads_on "x"] [lower_mesh] []) fresh),
    E.
  reflexivity.
Defined.


Lemma rule_table_changes_only_shardings_witness :
  rules_ctx (under (Instance.heads_on "x")) = [Instance.heads_on "x"]
  /\ rules_ctx (mkAmbient [Instance.heads_on "y"] [lower_mesh] [] : IState)
     = [Instance.heads_on "y"]
  /\ (exists (r1 r2 : SetupResult unit) (s1 s2 : IState),
         setup_i lower_mesh 8 None (under (Instance.heads_on "x"))
         = Some (r1, s1)
         /\ setup_i lower_mesh 8 None
                    (mkAmbient [Instance.heads_on "y"] [lower_mesh] [])
            = Some (r2, s2)
         /\ unsharded_results r1 = unsharded_results r2
         /\ s1 = under (Instance.heads_on "x")).
Proof.
  destruct (@rule_table_changes_only_shardings
              Instance.RuleTable Instance.resolve Instance.AttnAllToAll
              Instance.q_wi_per_head Instance.o_wo_per_head
              Instance.Weights_logical_axes
              Instance.FullChunkResult_logical_axes unit
              lower_mesh 8 None (under (Instance.heads_on "x"))
              (mkAmbient [Instance.heads_on "y"] [lower_mesh] [])
              (Instance.heads_on "x") (Instance.heads_on "y") [] []
              eq_refl eq_refl)
    as [Hsame Hinv].
  split; [reflexivity|]. split; [reflexivity|].
  destruct (setup_i lower_mesh 8 None (under (Instance.heads_on "x")))
    as [[r1 s1]|] eqn:E1 in |- *; [|vm_compute in E1; discriminate E1].
  destruct (setup_i lower_mesh 8 None
                    (mkAmbient [Instance.heads_on "y"] [lower_mesh] []))
    as [[r2 s2]|] eqn:E2 in |- *; [|vm_compute in E2; discriminate E2].
  exists r1, r2, s1, s2. split; [reflexivity|]. split; [reflexivity|].
  split; [exact (Hsame r1 r2 s1 s2 E1 E2)|].
  exact (proj1 (Hinv r1 s1 E1)).
Defined.
